(** * Password validation pipeline and soft-delete records

    A shallow embedding of
      - [src/sentry/auth/password_validation.py]
      - [src/sentry/db/models/paranoia.py]
    followed by the properties of the two components.

    Conventions of the embedding.
      - A Python [str] is a [string]; [len] is [String.length].
      - A Python [int] is a [Z].
      - A Python [dict] with string keys is a [gmap string _].
      - A call that may raise returns a [Result]; the functions of the
        module that call out to collaborators (the resolver, constructors,
        validators) live in the monad [M], which pairs the result with the
        sequence of external calls performed so far. *)

From Stdlib Require Import ZArith Lia Ascii String.
From stdpp Require Import base list strings gmap pretty.

Open Scope string_scope.
Open Scope list_scope.
Open Scope Z_scope.

(** ** Python-level helpers *)

(** [fmt % arg] for a format with one [%s] conversion and a [str] argument. *)
Fixpoint percent_s (fmt arg : string) : string :=
  match fmt with
  | String "%"%char (String "s"%char rest) => arg +:+ rest
  | String c rest => String c (percent_s rest arg)
  | EmptyString => EmptyString
  end.

(** [s.replace(pat, rep, 1)]: the first occurrence of [pat] replaced. *)
Fixpoint replace_first (pat rep s : string) : string :=
  if String.prefix pat s
  then rep +:+ String.substring (String.length pat) (String.length s - String.length pat) s
  else match s with
       | EmptyString => EmptyString
       | String c rest => String c (replace_first pat rep rest)
       end.

(** [fmt % {key: n}] for a format with one [%(key)d] conversion. *)
Definition percent_d (fmt key : string) (n : Z) : string :=
  replace_first ("%(" +:+ key +:+ ")d") (pretty n) fmt.

(** [django.utils.translation.ngettext] with no translation catalogue
    active: the singular form for exactly one, the plural form otherwise. *)
Definition ngettext (singular plural : string) (number : Z) : string :=
  if number =? 1 then singular else plural.

(** [django.utils.html.escape], applied by [format_html] to every
    argument. *)
Fixpoint escape (s : string) : string :=
  match s with
  | EmptyString => EmptyString
  | String c rest =>
      (if Ascii.eqb c "&" then "&amp;"
       else if Ascii.eqb c "<" then "&lt;"
       else if Ascii.eqb c ">" then "&gt;"
       else if Ascii.eqb c "034" then "&quot;"
       else if Ascii.eqb c "'" then "&#x27;"
       else String c EmptyString) +:+ escape rest
  end.

(** ** Exceptions and results *)

Set Warnings "-register-all".

(** [django.core.exceptions.ValidationError] as the module uses it: either
    one failure, built as [ValidationError(message, code=..., params=...)],
    or an aggregate, built as [ValidationError(errors)] from a list of
    failures. *)
Inductive ValidationError : Type :=
  | VE (message : string) (code : option string) (params : gmap string Z)
  | VEs (errors : list ValidationError).

(** The exceptions that reach the module.  [except ValidationError] and
    [except ImportError] select on the constructor. *)
Inductive Exception : Type :=
  | ValidationError_exn (error : ValidationError)
  | ImproperlyConfigured (msg : string)
  | ImportError (msg : string)
  | TypeError (msg : string)
  | OtherException (kind msg : string).

Inductive Result (A : Type) : Type :=
  | Return (a : A)
  | Raise (e : Exception).
Arguments Return {A} a.
Arguments Raise {A} e.

Section Pipeline.

(** The subject identity handed to validators; the module passes it
    through untouched. *)
Context {User : Type}.

(** A validator instance: what [validator.validate(password, user=user)]
    does (returns, its value ignored, or raises) and the text
    [validator.get_help_text()] returns. *)
Record Validator : Type := {
  validate : string -> option User -> Result unit;
  get_help_text : string
}.

(** A validator type: what calling it with the options as keyword
    arguments does. *)
Record Class : Type := {
  cls_call : gmap string Z -> Result Validator
}.

(** One entry of the configuration list, a dict with the key ["NAME"] and
    possibly the key ["OPTIONS"]. *)
Record Descriptor : Type := {
  NAME : string;
  OPTIONS : option (gmap string Z)
}.

(** The external calls the module performs, in the order it performs
    them. *)
Inductive Event : Type :=
  | Call_import_string (name : string)
  | Call_cls (cls : Class) (options : gmap string Z)
  | Call_validate (validator : Validator) (password : string) (user : option User)
  | Call_get_help_text (validator : Validator).

(** A computation: the calls performed and how it ended. *)
Definition M (A : Type) : Type := (list Event * Result A)%type.

Definition ret {A} (a : A) : M A := ([], Return a).
Definition raise {A} (e : Exception) : M A := ([], Raise e).
Definition bind {A B} (m : M A) (k : A -> M B) : M B :=
  match m with
  | (t, Return a) => let '(t', r) := k a in (t ++ t', r)
  | (t, Raise e) => (t, Raise e)
  end.
(** [try: m except: handler], the handler choosing what it catches. *)
Definition try_except {A} (m : M A) (handler : Exception -> M A) : M A :=
  match m with
  | (t, Return a) => (t, Return a)
  | (t, Raise e) => let '(t', r) := handler e in (t ++ t', r)
  end.
(** An external call [ev] that ends as [r]. *)
Definition call {A} (ev : Event) (r : Result A) : M A := ([ev], r).

Definition trace {A} (m : M A) : list Event := fst m.
Definition result {A} (m : M A) : Result A := snd m.

End Pipeline.

Declare Scope pipeline_scope.
Delimit Scope pipeline_scope with pipeline.
Notation "x <- m ;; k" := (bind m (fun x => k))
  (at level 100, m at next level, right associativity) : pipeline_scope.
Notation "m ;; k" := (bind m (fun _ => k))
  (at level 100, right associativity) : pipeline_scope.
Open Scope pipeline_scope.

(** [django.utils.html.format_html(fmt, arg)] for a format with one [{}]
    field: the escaped argument is put in its place. *)
Fixpoint format_html (fmt arg : string) : string :=
  match fmt with
  | String "{"%char (String "}"%char rest) => escape arg +:+ rest
  | String c rest => String c (format_html rest arg)
  | EmptyString => EmptyString
  end.

(** ** [sentry/auth/password_validation.py] *)

Section PasswordValidation.

Context {User : Type}.

(** [sentry.utils.imports.import_string], the name-to-type resolver: it
    returns a type or raises (an [ImportError] when the name does not
    resolve). *)
Variable import_string : string -> Result (@Class User).

(** [settings.AUTH_PASSWORD_VALIDATORS]. *)
Variable AUTH_PASSWORD_VALIDATORS : list Descriptor.

Definition could_not_be_imported : string :=
  "The module in NAME could not be imported: %s. Check your AUTH_PASSWORD_VALIDATORS setting.".

(** The [for] loop of [get_password_validators], [validators] being the
    list built so far. *)
Fixpoint get_password_validators_loop
    (validator_config : list Descriptor) (validators : list (@Validator User))
    : M (list Validator) :=
  match validator_config with
  | [] => ret validators
  | validator :: rest =>
      cls <- try_except
               (call (Call_import_string (NAME validator))
                     (import_string (NAME validator)))
               (fun e =>
                  match e with
                  | ImportError _ =>
                      let msg := could_not_be_imported in
                      raise (ImproperlyConfigured (percent_s msg (NAME validator)))
                  | _ => raise e
                  end) ;;
      let options := default ∅ (OPTIONS validator) in
      instance <- call (Call_cls cls options) (cls_call cls options) ;;
      get_password_validators_loop rest (validators ++ [instance])
  end.

Definition get_password_validators (validator_config : list Descriptor)
    : M (list Validator) :=
  get_password_validators_loop validator_config [].

Definition get_default_password_validators : M (list Validator) :=
  get_password_validators AUTH_PASSWORD_VALIDATORS.

(** The [for] loop of [validate_password], [errors] being the failures
    collected so far. *)
Fixpoint validate_password_loop
    (password : string) (user : option User)
    (password_validators : list Validator) (errors : list ValidationError)
    : M (list ValidationError) :=
  match password_validators with
  | [] => ret errors
  | validator :: rest =>
      errors <- try_except
                  (call (Call_validate validator password user)
                        (validate validator password user) ;;
                   ret errors)
                  (fun e =>
                     match e with
                     | ValidationError_exn error => ret (errors ++ [error])
                     | _ => raise e
                     end) ;;
      validate_password_loop password user rest errors
  end.

(** [validate_password(password, user=None, password_validators=None)];
    returning [tt] is returning [None]. *)
Definition validate_password
    (password : string) (user : option User)
    (password_validators : option (list Validator)) : M unit :=
  let errors := [] in
  password_validators <- match password_validators with
                         | None => get_default_password_validators
                         | Some l => ret l
                         end ;;
  errors <- validate_password_loop password user password_validators errors ;;
  match errors with
  | [] => ret tt
  | _ :: _ => raise (ValidationError_exn (VEs errors))
  end.

Fixpoint password_validators_help_texts_loop
    (password_validators : list (@Validator User)) (help_texts : list string)
    : M (list string) :=
  match password_validators with
  | [] => ret help_texts
  | validator :: rest =>
      text <- call (Call_get_help_text validator)
                   (Return (get_help_text validator)) ;;
      password_validators_help_texts_loop rest (help_texts ++ [text])
  end.

Definition password_validators_help_texts
    (password_validators : option (list Validator)) : M (list string) :=
  let help_texts := [] in
  password_validators <- match password_validators with
                         | None => get_default_password_validators
                         | Some l => ret l
                         end ;;
  password_validators_help_texts_loop password_validators help_texts.

Definition _password_validators_help_text_html
    (password_validators : option (list Validator)) : M string :=
  help_texts <- password_validators_help_texts password_validators ;;
  let help_items :=
    map (fun help_text => format_html "<li>{}</li>" help_text) help_texts in
  ret (match help_items with
       | [] => ""
       | _ :: _ => percent_s "<ul>%s</ul>" (String.concat "" help_items)
       end).

End PasswordValidation.

Module MaximumLengthValidator.

Record t : Type := { max_length : Z }.

(** [__init__(self, max_length=256)] called with keyword arguments only:
    a keyword other than [max_length] is a [TypeError] (the interpreter's
    message, which goes on to name the keyword, is cut short here). *)
Definition __init__ (kwargs : gmap string Z) : Result t :=
  if decide (delete "max_length" kwargs = ∅)
  then Return {| max_length := default 256 (kwargs !! "max_length") |}
  else Raise (TypeError "__init__() got an unexpected keyword argument").

Definition validate {User : Type} (self : t) (password : string) (user : option User)
    : Result unit :=
  if Z.of_nat (String.length password) >? max_length self
  then Raise (ValidationError_exn
                (VE (ngettext
                       "This password is too long. It must contain no more than %(max_length)d character."
                       "This password is too long. It must contain no more than %(max_length)d characters."
                       (max_length self))
                    (Some "password_too_long")
                    {[ "max_length" := max_length self ]}))
  else Return tt.

Definition get_help_text (self : t) : string :=
  percent_d
    (ngettext
       "Your password must contain no more than %(max_length)d character."
       "Your password must contain no more than %(max_length)d characters."
       (max_length self))
    "max_length" (max_length self).

(** An instance seen through the validator interface. *)
Definition instance {User : Type} (self : t) : @Validator User :=
  Build_Validator (validate self) (get_help_text self).

(** The type itself: instantiation runs [__init__]. *)
Definition cls {User : Type} : @Class User :=
  {| cls_call := fun kwargs =>
       match __init__ kwargs with
       | Return self => Return (instance self)
       | Raise e => Raise e
       end |}.

End MaximumLengthValidator.

(** The resolver restricted to this module: the dotted path of
    [MaximumLengthValidator] resolves, any other name does not. *)
Definition import_string_here {User : Type} (path : string) : Result (@Class User) :=
  if decide (path = "sentry.auth.password_validation.MaximumLengthValidator")
  then Return MaximumLengthValidator.cls
  else Raise (ImportError ("No module named " +:+ path)).

(** ** The persistence layer behind [sentry/db/models/paranoia.py] *)

Section Persistence.

(** The columns of a model other than [date_deleted]. *)
Context {Fields : Type}.

(** A stored row of a soft-deletable model; [date_deleted] is [None]
    for SQL NULL and an instant otherwise. *)
Record Row : Type := {
  date_deleted : option Z;
  fields : Fields
}.

Definition set_date_deleted (v : option Z) (r : Row) : Row :=
  {| date_deleted := v; fields := fields r |}.

(** The process state: the model's table, keyed by primary key, and the
    number of times the clock has been read. *)
Record World : Type := {
  table : gmap Z Row;
  clock_reads : nat
}.

(** [clock n] is the instant the [n]-th reading of the clock yields. *)
Variable clock : nat -> Z.

(** [django.utils.timezone.now()]. *)
Definition timezone_now (w : World) : Z * World :=
  (clock (clock_reads w),
   {| table := table w; clock_reads := S (clock_reads w) |}).

(** A [django.db.models.query.QuerySet]: a query, not its rows; it is
    the condition a row and its primary key must meet. *)
Record QuerySet : Type := {
  condition : Z -> Row -> bool
}.

(** The query over the whole table of the model. *)
Definition QuerySet_new : QuerySet := {| condition := fun _ _ => true |}.

(** [qs.filter(...)]: one more condition. *)
Definition QuerySet_filter (qs : QuerySet) (cond : Z -> Row -> bool) : QuerySet :=
  {| condition := fun pk r => condition qs pk r && cond pk r |}.

(** The lookups the module and its persistence layer use. *)
Definition date_deleted__isnull (b : bool) : Z -> Row -> bool :=
  fun _ r =>
    match date_deleted r with
    | None => b
    | Some _ => negb b
    end.
Definition pk_is (k : Z) : Z -> Row -> bool :=
  fun pk _ => bool_decide (pk = k).

(** Evaluating a query: the rows of the table that meet its condition. *)
Definition QuerySet_rows (qs : QuerySet) (tbl : gmap Z Row) : gmap Z Row :=
  filter (fun kv => condition qs kv.1 kv.2 = true) tbl.

(** [qs.update(date_deleted=v)], the bulk update-by-filter primitive:
    the column is written on every row the query selects. *)
Definition QuerySet_update (qs : QuerySet) (v : option Z) (w : World) : World :=
  {| table := map_imap (fun pk r =>
                Some (if condition qs pk r then set_date_deleted v r else r))
                (table w);
     clock_reads := clock_reads w |}.

(** A model instance in memory: its primary key and its copy of the
    columns. *)
Record Instance : Type := {
  pk : Z;
  loaded : Row
}.

(** Modelled from the spec: [BaseModel.update] of [sentry.db.models], the
    single-record update primitive of the persistence layer, called as
    [self.update(date_deleted=v)]: the column is written on the row whose
    primary key is that of the instance, whichever state the row is in. *)
Definition BaseModel_update (self : Instance) (v : option Z) (w : World) : World :=
  QuerySet_update (QuerySet_filter QuerySet_new (pk_is (pk self))) v w.

(** Modelled from the spec: [BaseManager.get_queryset] of
    [sentry.db.models], the unfiltered access path: it applies no
    filter and returns records in both states. *)
Definition BaseManager_get_queryset : QuerySet := QuerySet_new.

End Persistence.

(** ** [sentry/db/models/paranoia.py] *)

Module ParanoidQuerySet.
(** [delete(self)]: [self.update(date_deleted=timezone.now())]. *)
Definition delete {Fields : Type} (clock : nat -> Z)
    (self : @QuerySet Fields) (w : World) : World :=
  let '(now, w) := timezone_now clock w in
  QuerySet_update self (Some now) w.
End ParanoidQuerySet.

Module ParanoidManager.
(** [get_queryset(self)]:
    [ParanoidQuerySet(self.model, using=self._db).filter(date_deleted__isnull=True)]. *)
Definition get_queryset {Fields : Type} : @QuerySet Fields :=
  QuerySet_filter QuerySet_new (date_deleted__isnull true).
End ParanoidManager.

Module ParanoidModel.
(** [objects = ParanoidManager()] and [with_deleted = BaseManager()],
    each seen as the query it hands out. *)
Definition objects {Fields : Type} : @QuerySet Fields :=
  ParanoidManager.get_queryset.
Definition with_deleted {Fields : Type} : @QuerySet Fields :=
  BaseManager_get_queryset.

(** [delete(self)]: [self.update(date_deleted=timezone.now())]. *)
Definition delete {Fields : Type} (clock : nat -> Z)
    (self : @Instance Fields) (w : World) : World :=
  let '(now, w) := timezone_now clock w in
  BaseModel_update self (Some now) w.
End ParanoidModel.

(** ** Vocabulary of the statements *)

Section Vocabulary.

Context {User : Type}.

(** The failure a validator reports for this password, if any. *)
Definition failure_of (password : string) (user : option User)
    (validator : Validator) : option ValidationError :=
  match validate validator password user with
  | Raise (ValidationError_exn error) => Some error
  | _ => None
  end.

(** The password violates the validator: [validate] raises a
    [ValidationError]. *)
Definition violates (password : string) (user : option User)
    (validator : Validator) : bool :=
  match failure_of password user validator with
  | Some _ => true
  | None => false
  end.

(** The validator accepts the password or rejects it with a
    [ValidationError], nothing else. *)
Definition accepts_or_rejects (password : string) (user : option User)
    (validator : Validator) : Prop :=
  validate validator password user = Return tt \/
  exists error, validate validator password user = Raise (ValidationError_exn error).

Definition is_ValidationError (e : Exception) : bool :=
  match e with
  | ValidationError_exn _ => true
  | _ => false
  end.

Definition validate_calls (password : string) (user : option User)
    (validators : list Validator) : list Event :=
  map (fun validator => Call_validate validator password user) validators.

Definition help_calls (validators : list (@Validator User)) : list Event :=
  map Call_get_help_text validators.

(** One help text as a list item, its markup escaped. *)
Definition list_item (help_text : string) : string :=
  "<li>" +:+ escape help_text +:+ "</li>".

Variable import_string : string -> Result (@Class User).

(** The name does not resolve: the resolver raises an [ImportError]. *)
Definition unresolvable (name : string) : Prop :=
  exists msg, import_string name = Raise (ImportError msg).

(** The descriptor's type resolves and, called with the descriptor's
    options, returns [instance]. *)
Definition builds (d : Descriptor) (instance : Validator) : Prop :=
  exists cls,
    import_string (NAME d) = Return cls /\
    cls_call cls (default ∅ (OPTIONS d)) = Return instance.

(** The calls [get_password_validators] performs for one descriptor: the
    resolution of its name and, when that returns a type, the
    instantiation of the type. *)
Definition build_calls (d : Descriptor) : list Event :=
  Call_import_string (NAME d) ::
  match import_string (NAME d) with
  | Return cls => [Call_cls cls (default ∅ (OPTIONS d))]
  | Raise _ => []
  end.

Definition is_Call_cls (ev : @Event User) : bool :=
  match ev with
  | Call_cls _ _ => true
  | _ => false
  end.

End Vocabulary.

(** Occurrences of [pat] in [s], as [s.count(pat)] counts them for a
    pattern that cannot overlap itself. *)
Fixpoint occurrences (pat s : string) : nat :=
  ((if String.prefix pat s then 1 else 0) +
   match s with
   | EmptyString => 0
   | String _ rest => occurrences pat rest
   end)%nat.

(** A validator whose check ends with an exception of another kind. *)
Definition failing_validator {User : Type} : @Validator User :=
  {| validate := fun _ _ => Raise (OtherException "RuntimeError" "lookup failed");
     get_help_text := "" |}.

(** The clock never runs backwards. *)
Definition never_runs_backwards (clock : nat -> Z) : Prop :=
  forall n m, (n <= m)%nat -> clock n <= clock m.

(** ** Concrete configurations, used to exercise the statements *)

Definition max_length_validator (limit : Z) : @Validator unit :=
  MaximumLengthValidator.instance {| MaximumLengthValidator.max_length := limit |}.

Definition descriptor_default : Descriptor :=
  {| NAME := "sentry.auth.password_validation.MaximumLengthValidator";
     OPTIONS := None |}.

Definition descriptor_limit (limit : Z) : Descriptor :=
  {| NAME := "sentry.auth.password_validation.MaximumLengthValidator";
     OPTIONS := Some {[ "max_length" := limit ]} |}.

Definition descriptor_bad_option : Descriptor :=
  {| NAME := "sentry.auth.password_validation.MaximumLengthValidator";
     OPTIONS := Some {[ "min_length" := 8 ]} |}.

Definition descriptor_unknown : Descriptor :=
  {| NAME := "sentry.auth.password_validation.MinimumLengthValidator";
     OPTIONS := None |}.

(** A clock that advances by one at every reading. *)
Definition ticking_clock (n : nat) : Z := 1700000000 + Z.of_nat n.

(** A table of three rows, the third one already soft-deleted. *)
Definition three_rows : gmap Z (@Row string) :=
  {[ 1 := {| date_deleted := None; fields := "first" |};
     2 := {| date_deleted := None; fields := "second" |};
     3 := {| date_deleted := Some 1600000000; fields := "third" |} ]}.

Definition three_rows_world : @World string :=
  {| table := three_rows; clock_reads := 0 |}.

(** A password of [n] characters. *)
Definition password_of_length (n : nat) : string :=
  string_of_list_ascii (repeat "a"%char n).

(** The first row of [three_rows], loaded. *)
Definition first_instance : @Instance string :=
  {| pk := 1; loaded := {| date_deleted := None; fields := "first" |} |}.

(** The third row of [three_rows], loaded. *)
Definition third_instance : @Instance string :=
  {| pk := 3; loaded := {| date_deleted := Some 1600000000; fields := "third" |} |}.

(** The descriptor with its options written out: the empty mapping where
    it has no ["OPTIONS"] key. *)
Definition options_spelled_out (d : Descriptor) : Descriptor :=
  {| NAME := NAME d; OPTIONS := Some (default ∅ (OPTIONS d)) |}.

(** A resolver that meets a module whose import fails with an error of
    its own, and otherwise resolves as [import_string_here]. *)
Definition import_string_broken_module {User : Type} (path : string)
    : Result (@Class User) :=
  if decide (path = "sentry.auth.broken.Validator")
  then Raise (OtherException "SyntaxError" "invalid syntax")
  else import_string_here path.

Definition descriptor_broken_module : Descriptor :=
  {| NAME := "sentry.auth.broken.Validator"; OPTIONS := None |}.

(** ** Properties of the validator pipeline *)

Section PipelineProperties.

Context {User : Type}.
Variable import_string : string -> Result (@Class User).
Variable AUTH_PASSWORD_VALIDATORS : list (Descriptor).

Lemma accepts_or_rejects_step password user (validator : @Validator User) errors :
  accepts_or_rejects password user validator ->
  try_except
    (call (Call_validate validator password user)
          (validate validator password user) ;;
     ret errors)
    (fun e =>
       match e with
       | ValidationError_exn error => ret (errors ++ [error])
       | _ => raise e
       end)
  = ([Call_validate validator password user],
     Return (errors ++ option_list (failure_of password user validator))).
Proof.
  unfold failure_of. intros [H | [error H]]; rewrite H; cbn.
  - by rewrite app_nil_r.
  - done.
Qed.

(** The loop runs every validator and appends the failures in order. *)
Lemma validate_password_loop_collects password user (validators : list (@Validator User)) :
  Forall (accepts_or_rejects password user) validators ->
  forall errors,
    validate_password_loop password user validators errors
    = (validate_calls password user validators,
       Return (errors ++ omap (failure_of password user) validators)).
Proof.
  induction 1 as [| validator rest Hv _ IH]; intros errors;
    cbn [validate_password_loop validate_calls map omap list_omap].
  - unfold ret. by rewrite app_nil_r.
  - rewrite (accepts_or_rejects_step _ _ _ _ Hv).
    unfold bind. rewrite IH. cbn. f_equal. f_equal.
    destruct (failure_of password user validator); cbn.
    + by rewrite <- app_assoc.
    + by rewrite app_nil_r.
Qed.

Lemma failures_of_violated password user (validators : list (@Validator User)) :
  Forall2 (fun validator error =>
             validate validator password user = Raise (ValidationError_exn error))
          (List.filter (violates password user) validators)
          (omap (failure_of password user) validators).
Proof.
  induction validators as [| v rest IH]; cbn; [constructor |].
  unfold violates.
  destruct (failure_of password user v) as [error |] eqn:E; [| exact IH].
  constructor; [| exact IH].
  unfold failure_of in E.
  destruct (validate v password user) as [| [] ]; congruence.
Qed.

(** Once the validators of a prefix have all accepted or rejected, the
    loop goes on with the rest and the failures of the prefix. *)
Lemma validate_password_loop_app password user (before rest : list (@Validator User)) :
  Forall (accepts_or_rejects password user) before ->
  forall errors,
    validate_password_loop password user (before ++ rest) errors
    = let '(t, r) := validate_password_loop password user rest
                       (errors ++ omap (failure_of password user) before) in
      (validate_calls password user before ++ t, r).
Proof.
  induction 1 as [| validator before' Hv _ IH]; intros errors;
    cbn [validate_password_loop validate_calls map omap list_omap app].
  - rewrite app_nil_r. by destruct (validate_password_loop _ _ _ _).
  - rewrite (accepts_or_rejects_step _ _ _ _ Hv).
    unfold bind. rewrite IH.
    replace ((errors ++ option_list (failure_of password user validator))
               ++ omap (failure_of password user) before')
      with (errors ++ match failure_of password user validator with
                      | Some y => y :: omap (failure_of password user) before'
                      | None => omap (failure_of password user) before'
                      end).
    + by destruct (validate_password_loop _ _ _ _).
    + destruct (failure_of password user validator); cbn.
      * by rewrite <- app_assoc.
      * by rewrite app_nil_r.
Qed.

(** C1: when the password violates exactly K >= 1 of the validators of the
    list, each of them raising a validation error and the others
    accepting, [validate_password] calls every validator of the list (it
    does not stop at the first failure) and raises one aggregate
    [ValidationError] built from exactly K failures: the errors of the
    violated validators, one each, in their order. *)
Theorem validate_password_reports_every_failure
    password user (validators : list (@Validator User)) (K : nat) :
  Forall (accepts_or_rejects password user) validators ->
  length (List.filter (violates password user) validators) = K ->
  (0 < K)%nat ->
  exists errors,
    validate_password import_string AUTH_PASSWORD_VALIDATORS
      password user (Some validators)
    = (validate_calls password user validators,
       Raise (ValidationError_exn (VEs errors)))
    /\ length errors = K
    /\ Forall2 (fun validator error =>
                  validate validator password user
                  = Raise (ValidationError_exn error))
               (List.filter (violates password user) validators) errors.
Proof.
  intros Hall HK Hpos.
  pose proof (failures_of_violated password user validators) as Hmatch.
  exists (omap (failure_of password user) validators).
  split; [| split].
  - unfold validate_password. cbn [bind ret].
    rewrite (validate_password_loop_collects _ _ _ Hall). cbn [app].
    apply Forall2_length in Hmatch.
    destruct (omap (failure_of password user) validators) as [| e l]; cbn in *.
    + lia.
    + by rewrite app_nil_r.
  - apply Forall2_length in Hmatch. lia.
  - exact Hmatch.
Qed.

(** A password that every validator of the list accepts: every validator
    is called and [validate_password] returns [None]. *)
Theorem validate_password_accepts
    password user (validators : list (@Validator User)) :
  Forall (fun validator => validate validator password user = Return tt) validators ->
  validate_password import_string AUTH_PASSWORD_VALIDATORS
    password user (Some validators)
  = (validate_calls password user validators, Return tt).
Proof.
  intros Hall.
  assert (Forall (accepts_or_rejects password user) validators) as Haor.
  { eapply Forall_impl; [exact Hall |]. intros v Hv. by left. }
  unfold validate_password. cbn [bind ret].
  rewrite (validate_password_loop_collects _ _ _ Haor). cbn [app].
  assert (omap (failure_of password user) validators = []) as ->.
  { clear Haor. induction Hall as [| v rest Hv _ IH]; [done |].
    cbn. unfold failure_of at 1. by rewrite Hv. }
  cbn. by rewrite app_nil_r.
Qed.

(** C9: with an empty validator list [validate_password] calls nothing,
    raises nothing and returns [None]; so it does when the list is left
    out and the configured list is empty. *)
Theorem validate_password_no_validators password (user : option User) :
  validate_password import_string AUTH_PASSWORD_VALIDATORS password user (Some [])
  = ([], Return tt)
  /\ validate_password import_string [] password user None = ([], Return tt).
Proof. split; reflexivity. Qed.

(** C10: when a validator raises an exception that is not a
    [ValidationError], the validators before it having accepted or
    rejected, [validate_password] ends with that very exception: the
    validators after it are not called and no aggregate is raised, whatever
    failures were collected before. *)
Theorem validate_password_propagates_other_exceptions
    password user (before : list (@Validator User)) validator after e :
  Forall (accepts_or_rejects password user) before ->
  validate validator password user = Raise e ->
  is_ValidationError e = false ->
  validate_password import_string AUTH_PASSWORD_VALIDATORS
    password user (Some (before ++ validator :: after))
  = (validate_calls password user (before ++ [validator]), Raise e).
Proof.
  intros Hbefore Hraise Hother.
  unfold validate_password. cbn [bind ret].
  rewrite (validate_password_loop_app _ _ _ _ Hbefore).
  cbn [validate_password_loop app]. rewrite Hraise.
  unfold validate_calls. rewrite map_app. cbn.
  destruct e; try discriminate Hother; reflexivity.
Qed.

End PipelineProperties.

Section ConstructionProperties.

Context {User : Type}.
Variable import_string : string -> Result (@Class User).

Lemma could_not_be_imported_names name :
  percent_s could_not_be_imported name
  = "The module in NAME could not be imported: " +:+ name
    +:+ ". Check your AUTH_PASSWORD_VALIDATORS setting.".
Proof. reflexivity. Qed.

Lemma build_calls_builds d instance :
  builds import_string d instance ->
  exists cls,
    build_calls import_string d
    = [Call_import_string (NAME d); Call_cls cls (default ∅ (OPTIONS d))]
    /\ import_string (NAME d) = Return cls
    /\ cls_call cls (default ∅ (OPTIONS d)) = Return instance.
Proof.
  intros (cls & Hc & Hi). exists cls. unfold build_calls. by rewrite Hc.
Qed.

(** The loop over a prefix whose descriptors all build: the instances are
    appended in order and the loop goes on with the rest. *)
Lemma get_password_validators_loop_app before instances rest :
  Forall2 (builds import_string) before instances ->
  forall validators,
    get_password_validators_loop import_string (before ++ rest) validators
    = let '(t, r) := get_password_validators_loop import_string rest
                       (validators ++ instances) in
      (flat_map (build_calls import_string) before ++ t, r).
Proof.
  induction 1 as [| d instance before' instances' Hd _ IH]; intros validators;
    cbn [get_password_validators_loop flat_map app].
  - rewrite app_nil_r. by destruct (get_password_validators_loop _ _ _).
  - destruct (build_calls_builds _ _ Hd) as (cls & -> & Hc & Hi).
    rewrite Hc. cbn [call try_except bind]. rewrite Hi, IH.
    rewrite <- app_assoc. cbn [app].
    by destruct (get_password_validators_loop _ _ _).
Qed.

Lemma build_calls_count before instances :
  Forall2 (builds import_string) before instances ->
  length (List.filter is_Call_cls (flat_map (build_calls import_string) before))
  = length before.
Proof.
  induction 1 as [| d instance before' instances' Hd _ IH]; [done |].
  cbn [flat_map]. destruct (build_calls_builds _ _ Hd) as (cls & -> & _ & _).
  cbn. by rewrite IH.
Qed.

(** C5, amended: when every type name of the configuration list resolves
    and every resolved type, called with its descriptor's options, returns
    an instance, [get_password_validators] returns exactly those
    instances, one per descriptor, in the order of the list. *)
Theorem get_password_validators_in_order validator_config instances :
  Forall2 (builds import_string) validator_config instances ->
  get_password_validators import_string validator_config
  = (flat_map (build_calls import_string) validator_config, Return instances)
  /\ length instances = length validator_config.
Proof.
  intros H. split; [| symmetry; by eapply Forall2_length].
  unfold get_password_validators.
  rewrite <- (app_nil_r validator_config) at 1.
  rewrite (get_password_validators_loop_app _ _ _ H).
  cbn. by rewrite app_nil_r.
Qed.

(** C3, amended: when a type name of the configuration list does not
    resolve, the descriptors before it resolving and building their
    instances, [get_password_validators] raises [ImproperlyConfigured]
    with a message that contains that name; by then the types of the
    descriptors before it have been instantiated, one call each, and
    nothing of the descriptors after it has been resolved or built. *)
Theorem get_password_validators_unresolvable before instances d after :
  Forall2 (builds import_string) before instances ->
  unresolvable import_string (NAME d) ->
  get_password_validators import_string (before ++ d :: after)
  = (flat_map (build_calls import_string) before ++ [Call_import_string (NAME d)],
     Raise (ImproperlyConfigured
              ("The module in NAME could not be imported: " +:+ NAME d
               +:+ ". Check your AUTH_PASSWORD_VALIDATORS setting.")))
  /\ length (List.filter is_Call_cls
               (trace (get_password_validators import_string (before ++ d :: after))))
     = length before.
Proof.
  intros H [msg Hd].
  assert (get_password_validators import_string (before ++ d :: after)
          = (flat_map (build_calls import_string) before ++ [Call_import_string (NAME d)],
             Raise (ImproperlyConfigured (percent_s could_not_be_imported (NAME d)))))
    as E.
  { unfold get_password_validators.
    rewrite (get_password_validators_loop_app _ _ _ H).
    cbn [get_password_validators_loop]. rewrite Hd. reflexivity. }
  rewrite E. split; [by rewrite could_not_be_imported_names |].
  unfold trace. cbn [fst]. rewrite List.filter_app, length_app.
  rewrite (build_calls_count _ _ H). cbn. lia.
Qed.

End ConstructionProperties.

(** ** Properties of [MaximumLengthValidator] *)

Lemma MaximumLengthValidator_default :
  MaximumLengthValidator.__init__ ∅
  = Return {| MaximumLengthValidator.max_length := 256 |}.
Proof. reflexivity. Qed.

Lemma MaximumLengthValidator_configured (limit : Z) :
  MaximumLengthValidator.__init__ {[ "max_length" := limit ]}
  = Return {| MaximumLengthValidator.max_length := limit |}.
Proof.
  unfold MaximumLengthValidator.__init__.
  rewrite delete_singleton_eq, lookup_singleton_eq.
  by rewrite decide_True.
Qed.

(** C4: a [MaximumLengthValidator] accepts every password of length at most
    [max_length] and rejects every longer one, so that of length
    [max_length + 1], with a [ValidationError] of code [password_too_long]
    whose parameters hold [max_length]; the limit is 256 when none is
    configured and the configured one otherwise. *)
Theorem MaximumLengthValidator_validate_limit
    {User : Type} (self : MaximumLengthValidator.t) password (user : option User) :
  (Z.of_nat (String.length password) <= MaximumLengthValidator.max_length self ->
   MaximumLengthValidator.validate self password user = Return tt)
  /\ (MaximumLengthValidator.max_length self < Z.of_nat (String.length password) ->
      exists message params,
        MaximumLengthValidator.validate self password user
        = Raise (ValidationError_exn (VE message (Some "password_too_long") params))
        /\ params !! "max_length" = Some (MaximumLengthValidator.max_length self))
  /\ MaximumLengthValidator.__init__ ∅
     = Return {| MaximumLengthValidator.max_length := 256 |}
  /\ (forall limit,
        MaximumLengthValidator.__init__ {[ "max_length" := limit ]}
        = Return {| MaximumLengthValidator.max_length := limit |}).
Proof.
  unfold MaximumLengthValidator.validate. split; [| split; [| split]].
  - intros H. destruct (Z.gtb_spec (Z.of_nat (String.length password))
                          (MaximumLengthValidator.max_length self)); [lia | done].
  - intros H. destruct (Z.gtb_spec (Z.of_nat (String.length password))
                          (MaximumLengthValidator.max_length self)); [| lia].
    eexists _, _. split; [reflexivity |]. apply lookup_singleton_eq.
  - apply MaximumLengthValidator_default.
  - apply MaximumLengthValidator_configured.
Qed.

(** ** Properties of the help texts *)

Section HelpTextProperties.

Context {User : Type}.
Variable import_string : string -> Result (@Class User).
Variable AUTH_PASSWORD_VALIDATORS : list (Descriptor).


Lemma password_validators_help_texts_loop_collects (validators : list (@Validator User)) :
  forall help_texts,
    password_validators_help_texts_loop validators help_texts
    = (help_calls validators, Return (help_texts ++ map get_help_text validators)).
Proof.
  induction validators as [| v rest IH]; intros help_texts;
    cbn [password_validators_help_texts_loop help_calls map].
  - unfold ret. by rewrite app_nil_r.
  - cbn [call bind]. rewrite IH. cbn. by rewrite <- app_assoc.
Qed.

Lemma string_app_cons (x : ascii) (a b : string) :
  String x a +:+ b = String x (a +:+ b).
Proof. reflexivity. Qed.

Lemma string_app_assoc (a b c : string) : (a +:+ b) +:+ c = a +:+ (b +:+ c).
Proof.
  induction a as [| x a IH]; [done |]. by rewrite !string_app_cons, IH.
Qed.

Lemma string_app_nil_r (a : string) : a +:+ "" = a.
Proof.
  induction a as [| x a IH]; [done |]. by rewrite string_app_cons, IH.
Qed.

Lemma concat_empty_cons (x : string) (xs : list string) :
  String.concat "" (x :: xs) = x +:+ String.concat "" xs.
Proof. destruct xs; cbn; [by rewrite string_app_nil_r | done]. Qed.

(** A pattern that starts with [<] does not occur at a character other
    than [<]. *)
Lemma occurrences_skip (p : string) (c : ascii) (s : string) :
  c <> "<"%char ->
  occurrences (String "<" p) (String c s) = occurrences (String "<" p) s.
Proof.
  intros Hc. cbn [occurrences String.prefix].
  destruct (ascii_dec "<" c); [congruence | done].
Qed.

(** Escaped text holds no [<], so no tag starts in it. *)
Lemma occurrences_escape (p : string) (text rest : string) :
  occurrences (String "<" p) (escape text +:+ rest)
  = occurrences (String "<" p) rest.
Proof.
  induction text as [| c text IH]; [done |].
  cbn [escape]. rewrite string_app_assoc.
  destruct (Ascii.eqb_spec c "&"); [by rewrite !string_app_cons, !occurrences_skip |].
  destruct (Ascii.eqb_spec c "<"); [by rewrite !string_app_cons, !occurrences_skip |].
  destruct (Ascii.eqb_spec c ">"); [by rewrite !string_app_cons, !occurrences_skip |].
  destruct (Ascii.eqb_spec c "034"); [by rewrite !string_app_cons, !occurrences_skip |].
  destruct (Ascii.eqb_spec c "'"); [by rewrite !string_app_cons, !occurrences_skip |].
  by rewrite string_app_cons, occurrences_skip.
Qed.

Lemma string_app_nil_l (a : string) : "" +:+ a = a.
Proof. reflexivity. Qed.

Lemma prefix_empty (s : string) : String.prefix "" s = true.
Proof. by destruct s. Qed.

Lemma occurrences_cons (pat : string) (c : ascii) (s : string) :
  occurrences pat (String c s)
  = ((if String.prefix pat (String c s) then 1 else 0) + occurrences pat s)%nat.
Proof. reflexivity. Qed.

(** Counting through the literal characters at the head of a string. *)
Ltac count_through_literal :=
  repeat first [rewrite string_app_cons | rewrite string_app_nil_l];
  repeat (rewrite occurrences_cons; simpl String.prefix; rewrite ?prefix_empty);
  cbn [Nat.add].

Lemma occurrences_open_list_item (text rest : string) :
  occurrences "<li>" (list_item text +:+ rest) = S (occurrences "<li>" rest).
Proof.
  unfold list_item. rewrite !string_app_assoc.
  count_through_literal. rewrite occurrences_escape.
  by count_through_literal.
Qed.

Lemma occurrences_close_list_item (text rest : string) :
  occurrences "</li>" (list_item text +:+ rest) = S (occurrences "</li>" rest).
Proof.
  unfold list_item. rewrite !string_app_assoc.
  count_through_literal. rewrite occurrences_escape.
  by count_through_literal.
Qed.

Lemma occurrences_list_items (texts : list string) (rest : string) :
  occurrences "<li>" (String.concat "" (map list_item texts) +:+ rest)
  = (length texts + occurrences "<li>" rest)%nat
  /\ occurrences "</li>" (String.concat "" (map list_item texts) +:+ rest)
     = (length texts + occurrences "</li>" rest)%nat.
Proof.
  induction texts as [| text texts [IHo IHc]]; [done |].
  cbn [map]. rewrite concat_empty_cons, string_app_assoc.
  rewrite occurrences_open_list_item, occurrences_close_list_item, IHo, IHc.
  done.
Qed.

(** C8: [password_validators_help_texts] asks every validator of the list
    for its help text, once and in order, and returns the texts in that
    order; [_password_validators_help_text_html] returns the empty string
    for the empty list and otherwise one [<ul>] element holding the
    escaped help texts, in order, in exactly one [<li>] element each. *)
Theorem help_texts_one_per_validator
    (validators : list (@Validator User)) (validator : Validator) (others : list Validator) :
  password_validators_help_texts import_string AUTH_PASSWORD_VALIDATORS (Some validators)
  = (help_calls validators, Return (map get_help_text validators))
  /\ _password_validators_help_text_html import_string AUTH_PASSWORD_VALIDATORS (Some [])
     = ([], Return "")
  /\ exists html,
       _password_validators_help_text_html import_string AUTH_PASSWORD_VALIDATORS
         (Some (validator :: others))
       = (help_calls (validator :: others), Return html)
       /\ html = "<ul>"
                 +:+ String.concat "" (map list_item (map get_help_text (validator :: others)))
                 +:+ "</ul>"
       /\ occurrences "<li>" html = length (validator :: others)
       /\ occurrences "</li>" html = length (validator :: others).
Proof.
  assert (forall l : list (@Validator User),
            password_validators_help_texts import_string AUTH_PASSWORD_VALIDATORS (Some l)
            = (help_calls l, Return (map get_help_text l))) as Htexts.
  { intros l. unfold password_validators_help_texts. cbn [bind ret].
    by rewrite password_validators_help_texts_loop_collects. }
  split; [apply Htexts |]. split; [reflexivity |].
  eexists. split; [| split; [reflexivity |]].
  - unfold _password_validators_help_text_html. rewrite Htexts.
    cbn [bind ret map]. rewrite app_nil_r. reflexivity.
  - destruct (occurrences_list_items (map get_help_text (validator :: others)) "</ul>")
      as [Ho Hc].
    rewrite length_map in Ho, Hc. split.
    + count_through_literal. rewrite Ho. cbn. lia.
    + count_through_literal. rewrite Hc. cbn. lia.
Qed.

End HelpTextProperties.

(** ** Properties of the soft-delete records *)

Section ParanoiaProperties.

Context {Fields : Type}.
Variable clock : nat -> Z.

Lemma QuerySet_update_lookup (qs : @QuerySet Fields) v (w : World) (k : Z) :
  table (QuerySet_update qs v w) !! k
  = (fun r => if condition qs k r then set_date_deleted v r else r) <$> table w !! k.
Proof.
  unfold QuerySet_update. cbn [table]. rewrite map_lookup_imap.
  by destruct (table w !! k).
Qed.

Lemma QuerySet_update_dom (qs : @QuerySet Fields) v (w : World) :
  dom (table (QuerySet_update qs v w)) = dom (table w).
Proof.
  apply set_eq. intros k. rewrite !elem_of_dom, QuerySet_update_lookup.
  by rewrite fmap_is_Some.
Qed.

Lemma BaseModel_update_lookup (self : @Instance Fields) v (w : World) :
  table (BaseModel_update self v w) !! pk self
  = set_date_deleted v <$> table w !! pk self.
Proof.
  unfold BaseModel_update. rewrite QuerySet_update_lookup.
  cbn [condition QuerySet_filter QuerySet_new andb]. unfold pk_is.
  by rewrite bool_decide_eq_true_2.
Qed.

Lemma ParanoidModel_delete_lookup (self : @Instance Fields) (w : World) :
  table (ParanoidModel.delete clock self w) !! pk self
  = set_date_deleted (Some (clock (clock_reads w))) <$> table w !! pk self
  /\ clock_reads (ParanoidModel.delete clock self w) = S (clock_reads w).
Proof.
  unfold ParanoidModel.delete, timezone_now.
  rewrite BaseModel_update_lookup. done.
Qed.

(** C6: [ParanoidQuerySet.delete] writes the instant it reads from the clock
    into [date_deleted] of every row its query selects and changes nothing
    else of those rows; every row the query does not select is left as it
    was; the table keeps exactly the primary keys it had. *)
Theorem ParanoidQuerySet_delete_marks_selected (self : @QuerySet Fields) (w : World) :
  let w' := ParanoidQuerySet.delete clock self w in
  let now := clock (clock_reads w) in
  (forall k r, table w !! k = Some r -> condition self k r = true ->
               table w' !! k = Some (set_date_deleted (Some now) r))
  /\ (forall k r, table w !! k = Some r -> condition self k r = false ->
                  table w' !! k = Some r)
  /\ dom (table w') = dom (table w).
Proof.
  cbv zeta. unfold ParanoidQuerySet.delete, timezone_now.
  split; [| split].
  - intros k r Hk Hc. rewrite QuerySet_update_lookup. cbn [table].
    by rewrite Hk; cbn; rewrite Hc.
  - intros k r Hk Hc. rewrite QuerySet_update_lookup. cbn [table].
    by rewrite Hk; cbn; rewrite Hc.
  - by rewrite QuerySet_update_dom.
Qed.

(** C2: a record that is alive is returned by the default manager; once
    [delete] has been called on it, the default manager no longer returns
    it, the unfiltered manager returns it with its other columns as they
    were, and its [date_deleted] is set to an instant no earlier than a
    reading of the clock taken just before the call. *)
Theorem ParanoidModel_delete_hides_record (self : @Instance Fields) (w : World) (r : Row) :
  never_runs_backwards clock ->
  table w !! pk self = Some r ->
  date_deleted r = None ->
  let called_at := (timezone_now clock w).1 in
  let w' := ParanoidModel.delete clock self (timezone_now clock w).2 in
  QuerySet_rows ParanoidModel.objects (table w) !! pk self = Some r
  /\ QuerySet_rows ParanoidModel.objects (table w') !! pk self = None
  /\ exists deleted_at,
       QuerySet_rows ParanoidModel.with_deleted (table w') !! pk self
       = Some (set_date_deleted (Some deleted_at) r)
       /\ called_at <= deleted_at.
Proof.
  intros Hclock Hr Halive. cbv zeta.
  destruct (ParanoidModel_delete_lookup self (timezone_now clock w).2) as [Hl _].
  change (table (timezone_now clock w).2) with (table w) in Hl.
  change (clock_reads (timezone_now clock w).2) with (S (clock_reads w)) in Hl.
  change (timezone_now clock w).1 with (clock (clock_reads w)).
  rewrite Hr in Hl. change (set_date_deleted ?v <$> Some r)
    with (Some (set_date_deleted v r)) in Hl.
  split; [| split].
  - apply map_lookup_filter_Some. split; [done |].
    unfold ParanoidModel.objects, ParanoidManager.get_queryset, date_deleted__isnull.
    cbn. by rewrite Halive.
  - apply map_lookup_filter_None. right. intros r' Hr'.
    rewrite Hl in Hr'. injection Hr' as <-.
    unfold ParanoidModel.objects, ParanoidManager.get_queryset, date_deleted__isnull.
    cbn. done.
  - eexists. split.
    + apply map_lookup_filter_Some. split; [exact Hl | done].
    + apply Hclock. lia.
Qed.

(** C7: after two calls of [delete] in a row the record is deleted, and
    its [date_deleted] is an instant no earlier than the one the first call
    wrote. *)
Theorem ParanoidModel_delete_twice (self : @Instance Fields) (w : World) (r : Row) :
  never_runs_backwards clock ->
  table w !! pk self = Some r ->
  let w1 := ParanoidModel.delete clock self w in
  let w2 := ParanoidModel.delete clock self w1 in
  exists first second,
    table w1 !! pk self = Some (set_date_deleted (Some first) r)
    /\ table w2 !! pk self = Some (set_date_deleted (Some second) r)
    /\ first <= second.
Proof.
  intros Hclock Hr. cbv zeta.
  destruct (ParanoidModel_delete_lookup self w) as [H1 Hn].
  destruct (ParanoidModel_delete_lookup self (ParanoidModel.delete clock self w))
    as [H2 _].
  rewrite Hr in H1. change (set_date_deleted ?v <$> Some r)
    with (Some (set_date_deleted v r)) in H1.
  rewrite H1, Hn in H2. change (set_date_deleted ?v <$> Some ?x)
    with (Some (set_date_deleted v x)) in H2.
  change (set_date_deleted ?v (set_date_deleted ?u r))
    with (set_date_deleted v r) in H2.
  eexists _, _. split; [exact H1 |]. split; [exact H2 |].
  apply Hclock. lia.
Qed.

End ParanoiaProperties.

(** ** The statements at concrete inputs *)

Ltac accepts_or_rejects_here :=
  first [left; reflexivity | right; eexists; reflexivity].

Lemma ticking_clock_never_runs_backwards : never_runs_backwards ticking_clock.
Proof. intros n m H. unfold ticking_clock. lia. Qed.

(** Three validators, limits 3, 256 and 5, and a password of eight
    characters: two failures, both reported. *)
Lemma validate_password_reports_every_failure_witness :
  exists errors,
    validate_password import_string_here [] "abcdefgh" None
      (Some [max_length_validator 3; max_length_validator 256; max_length_validator 5])
    = (validate_calls "abcdefgh" None
         [max_length_validator 3; max_length_validator 256; max_length_validator 5],
       Raise (ValidationError_exn (VEs errors)))
    /\ length errors = 2%nat
    /\ Forall2 (fun validator error =>
                  validate validator "abcdefgh" None
                  = Raise (ValidationError_exn error))
               (List.filter (violates "abcdefgh" None)
                  [max_length_validator 3; max_length_validator 256; max_length_validator 5])
               errors.
Proof.
  apply (validate_password_reports_every_failure import_string_here []
           "abcdefgh" None
           [max_length_validator 3; max_length_validator 256; max_length_validator 5]
           2).
  - constructor; [accepts_or_rejects_here |].
    constructor; [accepts_or_rejects_here |].
    constructor; [accepts_or_rejects_here |].
    constructor.
  - reflexivity.
  - lia.
Defined.

(** A password of eight characters against the limits 8 and 256. *)
Lemma validate_password_accepts_witness :
  validate_password import_string_here [] "abcdefgh" None
    (Some [max_length_validator 8; max_length_validator 256])
  = (validate_calls "abcdefgh" None [max_length_validator 8; max_length_validator 256],
     Return tt).
Proof.
  apply (validate_password_accepts import_string_here []
           "abcdefgh" None [max_length_validator 8; max_length_validator 256]).
  constructor; [reflexivity |]. constructor; [reflexivity |]. constructor.
Defined.

(** A validator that fails with a [RuntimeError] between two length
    checks: the error comes out as it is and the last check is not run. *)
Lemma validate_password_propagates_other_exceptions_witness :
  validate_password import_string_here [] "abcdefgh" None
    (Some ([max_length_validator 3] ++ failing_validator :: [max_length_validator 5]))
  = (validate_calls "abcdefgh" None ([max_length_validator 3] ++ [failing_validator]),
     Raise (OtherException "RuntimeError" "lookup failed")).
Proof.
  apply (validate_password_propagates_other_exceptions import_string_here []
           "abcdefgh" None [max_length_validator 3] failing_validator
           [max_length_validator 5]).
  - constructor; [accepts_or_rejects_here | constructor].
  - reflexivity.
  - reflexivity.
Defined.

(** C3 as stated fails: with a resolvable name before the unresolvable one,
    [MaximumLengthValidator] has been instantiated by the time
    [ImproperlyConfigured] is raised. *)
Lemma get_password_validators_builds_before_failing :
  unresolvable (User := unit) import_string_here (NAME descriptor_unknown)
  /\ get_password_validators (User := unit) import_string_here
       [descriptor_default; descriptor_unknown]
     = ([Call_import_string "sentry.auth.password_validation.MaximumLengthValidator";
         Call_cls MaximumLengthValidator.cls ∅;
         Call_import_string "sentry.auth.password_validation.MinimumLengthValidator"],
        Raise (ImproperlyConfigured
                 "The module in NAME could not be imported: sentry.auth.password_validation.MinimumLengthValidator. Check your AUTH_PASSWORD_VALIDATORS setting."))
  /\ cls_call MaximumLengthValidator.cls ∅ = Return (max_length_validator 256)
  /\ List.filter is_Call_cls
       (trace (get_password_validators (User := unit) import_string_here
                 [descriptor_default; descriptor_unknown]))
     <> [].
Proof.
  split; [eexists; reflexivity |].
  split; [reflexivity |].
  split; [reflexivity |].
  discriminate.
Qed.

Lemma get_password_validators_unresolvable_witness :
  get_password_validators (User := unit) import_string_here
    ([descriptor_default] ++ descriptor_unknown :: [descriptor_default])
  = (flat_map (build_calls import_string_here) [descriptor_default]
       ++ [Call_import_string (NAME descriptor_unknown)],
     Raise (ImproperlyConfigured
              ("The module in NAME could not be imported: " +:+ NAME descriptor_unknown
               +:+ ". Check your AUTH_PASSWORD_VALIDATORS setting.")))
  /\ length (List.filter is_Call_cls
               (trace (get_password_validators (User := unit) import_string_here
                         ([descriptor_default] ++ descriptor_unknown :: [descriptor_default]))))
     = length [descriptor_default].
Proof.
  apply (get_password_validators_unresolvable import_string_here
           [descriptor_default] [max_length_validator 256]
           descriptor_unknown [descriptor_default]).
  - constructor; [| constructor].
    eexists. split; reflexivity.
  - eexists. reflexivity.
Defined.

(** C5 as stated fails: the name resolves, the type rejects the options
    and no list is returned. *)
Lemma get_password_validators_rejected_options :
  import_string_here (User := unit) (NAME descriptor_bad_option)
  = Return MaximumLengthValidator.cls
  /\ get_password_validators (User := unit) import_string_here [descriptor_bad_option]
     = ([Call_import_string "sentry.auth.password_validation.MaximumLengthValidator";
         Call_cls MaximumLengthValidator.cls {[ "min_length" := 8 ]}],
        Raise (TypeError "__init__() got an unexpected keyword argument")).
Proof. split; reflexivity. Qed.

Lemma get_password_validators_in_order_witness :
  get_password_validators (User := unit) import_string_here
    [descriptor_default; descriptor_limit 5]
  = (flat_map (build_calls import_string_here) [descriptor_default; descriptor_limit 5],
     Return [max_length_validator 256; max_length_validator 5])
  /\ length [max_length_validator 256; max_length_validator 5]
     = length [descriptor_default; descriptor_limit 5].
Proof.
  apply (get_password_validators_in_order import_string_here
           [descriptor_default; descriptor_limit 5]
           [max_length_validator 256; max_length_validator 5]).
  constructor; [eexists; split; reflexivity |].
  constructor; [eexists; split; reflexivity |].
  constructor.
Defined.

(** The default limit: 256 characters pass, 257 do not. *)
Lemma MaximumLengthValidator_validate_limit_witness :
  MaximumLengthValidator.validate (User := unit)
    {| MaximumLengthValidator.max_length := 256 |} (password_of_length 256) None
  = Return tt
  /\ exists message params,
       MaximumLengthValidator.validate (User := unit)
         {| MaximumLengthValidator.max_length := 256 |} (password_of_length 257) None
       = Raise (ValidationError_exn (VE message (Some "password_too_long") params))
       /\ params !! "max_length" = Some 256.
Proof.
  split.
  - apply (proj1 (MaximumLengthValidator_validate_limit
                    {| MaximumLengthValidator.max_length := 256 |}
                    (password_of_length 256) None)).
    vm_compute. discriminate.
  - apply (proj1 (proj2 (MaximumLengthValidator_validate_limit
                           {| MaximumLengthValidator.max_length := 256 |}
                           (password_of_length 257) None))).
    vm_compute. reflexivity.
Defined.

(** Bulk delete of the alive rows with primary key 1: that row is marked,
    the other two are as they were. *)
Lemma ParanoidQuerySet_delete_marks_selected_witness :
  let w' := ParanoidQuerySet.delete ticking_clock
              (QuerySet_filter ParanoidManager.get_queryset (pk_is 1))
              three_rows_world in
  table w' !! 1 = Some {| date_deleted := Some 1700000000; fields := "first" |}
  /\ table w' !! 2 = Some {| date_deleted := None; fields := "second" |}
  /\ table w' !! 3 = Some {| date_deleted := Some 1600000000; fields := "third" |}
  /\ dom (table w') = dom three_rows.
Proof.
  destruct (ParanoidQuerySet_delete_marks_selected ticking_clock
              (QuerySet_filter ParanoidManager.get_queryset (pk_is 1))
              three_rows_world) as (Hselected & Hothers & Hdom).
  cbv zeta. split; [| split; [| split]].
  - apply (Hselected 1 {| date_deleted := None; fields := "first" |}); reflexivity.
  - apply (Hothers 2 {| date_deleted := None; fields := "second" |}); reflexivity.
  - apply (Hothers 3 {| date_deleted := Some 1600000000; fields := "third" |});
      reflexivity.
  - exact Hdom.
Defined.

(** Deleting the first of the three rows, the clock read just before. *)
Lemma ParanoidModel_delete_hides_record_witness :
  let called_at := (timezone_now ticking_clock three_rows_world).1 in
  let w' := ParanoidModel.delete ticking_clock first_instance
              (timezone_now ticking_clock three_rows_world).2 in
  QuerySet_rows ParanoidModel.objects (table three_rows_world) !! pk first_instance
  = Some (loaded first_instance)
  /\ QuerySet_rows ParanoidModel.objects (table w') !! pk first_instance = None
  /\ exists deleted_at,
       QuerySet_rows ParanoidModel.with_deleted (table w') !! pk first_instance
       = Some (set_date_deleted (Some deleted_at) (loaded first_instance))
       /\ called_at <= deleted_at.
Proof.
  apply (ParanoidModel_delete_hides_record ticking_clock first_instance
           three_rows_world (loaded first_instance)).
  - exact ticking_clock_never_runs_backwards.
  - reflexivity.
  - reflexivity.
Defined.

(** Deleting the third row, already deleted, twice more. *)
Lemma ParanoidModel_delete_twice_witness :
  let w1 := ParanoidModel.delete ticking_clock third_instance three_rows_world in
  let w2 := ParanoidModel.delete ticking_clock third_instance w1 in
  exists first second,
    table w1 !! pk third_instance
    = Some (set_date_deleted (Some first) (loaded third_instance))
    /\ table w2 !! pk third_instance
       = Some (set_date_deleted (Some second) (loaded third_instance))
    /\ first <= second.
Proof.
  apply (ParanoidModel_delete_twice ticking_clock third_instance
           three_rows_world (loaded third_instance)).
  - exact ticking_clock_never_runs_backwards.
  - reflexivity.
Defined.

(** Two length checks rendered: one list item each, in order. *)
Example help_text_html_of_two_validators :
  _password_validators_help_text_html import_string_here []
    (Some [max_length_validator 1; max_length_validator 256])
  = ([Call_get_help_text (max_length_validator 1);
      Call_get_help_text (max_length_validator 256)],
     Return "<ul><li>Your password must contain no more than 1 character.</li><li>Your password must contain no more than 256 characters.</li></ul>").
Proof. vm_compute. reflexivity. Qed.

(** A help text with markup in it is escaped inside its list item. *)
Example list_item_escapes :
  list_item "a <b> & c" = "<li>a &lt;b&gt; &amp; c</li>".
Proof. vm_compute. reflexivity. Qed.

(** ** Further properties of pipeline construction *)

Section ConstructionFailures.

Context {User : Type}.
Variable import_string : string -> Result (@Class User).

(** A type that resolves but does not accept its options: the exception of
    its instantiation comes out of [get_password_validators] as it is, after
    the descriptors before it have been built, and nothing of the
    descriptors after it is resolved, so an unresolvable name further down
    the list goes unreported. *)
Theorem get_password_validators_constructor_raises before instances d cls e after :
  Forall2 (builds import_string) before instances ->
  import_string (NAME d) = Return cls ->
  cls_call cls (default ∅ (OPTIONS d)) = Raise e ->
  get_password_validators import_string (before ++ d :: after)
  = (flat_map (build_calls import_string) before
       ++ [Call_import_string (NAME d); Call_cls cls (default ∅ (OPTIONS d))],
     Raise e).
Proof.
  intros Hbefore Hcls Hraise. unfold get_password_validators.
  rewrite (get_password_validators_loop_app _ _ _ _ Hbefore).
  cbn [get_password_validators_loop]. rewrite Hcls.
  cbn [call try_except bind]. by rewrite Hraise.
Qed.

(** Only [ImportError] is turned into [ImproperlyConfigured]: any other
    exception of the resolver comes out of [get_password_validators] as it
    is, and the type is not instantiated. *)
Theorem get_password_validators_resolver_raises before instances d e after :
  Forall2 (builds import_string) before instances ->
  import_string (NAME d) = Raise e ->
  (forall msg, e <> ImportError msg) ->
  get_password_validators import_string (before ++ d :: after)
  = (flat_map (build_calls import_string) before ++ [Call_import_string (NAME d)],
     Raise e).
Proof.
  intros Hbefore Hraise Hother. unfold get_password_validators.
  rewrite (get_password_validators_loop_app _ _ _ _ Hbefore).
  cbn [get_password_validators_loop]. rewrite Hraise.
  destruct e; try reflexivity. by destruct (Hother msg).
Qed.

End ConstructionFailures.

(** ** Further properties of [validate_password] *)

Section ValidationOutcomes.

Context {User : Type}.
Variable import_string : string -> Result (@Class User).
Variable AUTH_PASSWORD_VALIDATORS : list (Descriptor).



End ValidationOutcomes.

(** ** The configured validators as the default *)

Section DefaultValidators.

Context {User : Type}.
Variable import_string : string -> Result (@Class User).
Variable AUTH_PASSWORD_VALIDATORS : list (Descriptor).

Lemma get_default_password_validators_builds instances :
  Forall2 (builds import_string) AUTH_PASSWORD_VALIDATORS instances ->
  get_default_password_validators import_string AUTH_PASSWORD_VALIDATORS
  = (flat_map (build_calls import_string) AUTH_PASSWORD_VALIDATORS, Return instances).
Proof.
  intros H. unfold get_default_password_validators, get_password_validators.
  rewrite <- (app_nil_r AUTH_PASSWORD_VALIDATORS) at 1.
  rewrite (get_password_validators_loop_app _ _ _ _ H).
  cbn. by rewrite app_nil_r.
Qed.

Lemma get_default_password_validators_unresolvable before instances d after :
  AUTH_PASSWORD_VALIDATORS = before ++ d :: after ->
  Forall2 (builds import_string) before instances ->
  unresolvable import_string (NAME d) ->
  get_default_password_validators import_string AUTH_PASSWORD_VALIDATORS
  = (flat_map (build_calls import_string) before ++ [Call_import_string (NAME d)],
     Raise (ImproperlyConfigured
              ("The module in NAME could not be imported: " +:+ NAME d
               +:+ ". Check your AUTH_PASSWORD_VALIDATORS setting."))).
Proof.
  intros -> H [msg Hd].
  unfold get_default_password_validators, get_password_validators.
  rewrite (get_password_validators_loop_app _ _ _ _ H).
  cbn [get_password_validators_loop]. rewrite Hd. reflexivity.
Qed.

(** Without an explicit list, [validate_password] first builds the
    configured validators, one resolution and one instantiation per
    descriptor, and then does exactly what it does when handed the built
    list: the same calls of the validators and the same outcome. *)
Theorem validate_password_default_list password user instances :
  Forall2 (builds import_string) AUTH_PASSWORD_VALIDATORS instances ->
  validate_password import_string AUTH_PASSWORD_VALIDATORS password user None
  = (flat_map (build_calls import_string) AUTH_PASSWORD_VALIDATORS
       ++ trace (validate_password import_string AUTH_PASSWORD_VALIDATORS
                   password user (Some instances)),
     result (validate_password import_string AUTH_PASSWORD_VALIDATORS
               password user (Some instances))).
Proof.
  intros H. unfold validate_password.
  rewrite (get_default_password_validators_builds _ H).
  cbn [bind ret app trace result fst snd].
  destruct (validate_password_loop password user instances []) as [t [errors | e]];
    [destruct errors |]; cbn; by rewrite ?app_nil_r.
Qed.

(** Without an explicit list and with a name in the settings that does not
    resolve, the entry points of the module raise [ImproperlyConfigured]
    naming it, and no validator is asked anything: neither to validate the
    password nor for its help text. *)
Theorem default_validators_unresolvable password user before instances d after :
  AUTH_PASSWORD_VALIDATORS = before ++ d :: after ->
  Forall2 (builds import_string) before instances ->
  unresolvable import_string (NAME d) ->
  let calls :=
    flat_map (build_calls import_string) before ++ [Call_import_string (NAME d)] in
  let e :=
    ImproperlyConfigured
      ("The module in NAME could not be imported: " +:+ NAME d
       +:+ ". Check your AUTH_PASSWORD_VALIDATORS setting.") in
  validate_password import_string AUTH_PASSWORD_VALIDATORS password user None
  = (calls, Raise e)
  /\ password_validators_help_texts import_string AUTH_PASSWORD_VALIDATORS None
     = (calls, Raise e)
  /\ _password_validators_help_text_html import_string AUTH_PASSWORD_VALIDATORS None
     = (calls, Raise e).
Proof.
  intros Hsplit Hbefore Hd. cbv zeta.
  pose proof (get_default_password_validators_unresolvable _ _ _ _ Hsplit Hbefore Hd) as E.
  unfold _password_validators_help_text_html, password_validators_help_texts,
    validate_password.
  rewrite E. by cbn [bind].
Qed.

(** Without an explicit list, [password_validators_help_texts] builds the
    configured validators and returns their help texts, one per descriptor
    of the settings, in the order of the settings. *)
Theorem password_validators_help_texts_default instances :
  Forall2 (builds import_string) AUTH_PASSWORD_VALIDATORS instances ->
  password_validators_help_texts import_string AUTH_PASSWORD_VALIDATORS None
  = (flat_map (build_calls import_string) AUTH_PASSWORD_VALIDATORS
       ++ help_calls instances,
     Return (map get_help_text instances))
  /\ length (map get_help_text instances) = length AUTH_PASSWORD_VALIDATORS.
Proof.
  intros H. split.
  - unfold password_validators_help_texts.
    rewrite (get_default_password_validators_builds _ H). cbn [bind].
    by rewrite password_validators_help_texts_loop_collects.
  - rewrite length_map. symmetry. by eapply Forall2_length.
Qed.

End DefaultValidators.

(** ** Further properties of [MaximumLengthValidator] *)

(** [MaximumLengthValidator] takes the keyword [max_length] and no other:
    with no keyword but that one it is built, with the given limit or 256;
    with any other keyword among the options it raises [TypeError],
    whether or not [max_length] is given as well. *)
Theorem MaximumLengthValidator_init_keywords (kwargs : gmap string Z) :
  ((forall key, is_Some (kwargs !! key) -> key = "max_length") ->
   MaximumLengthValidator.__init__ kwargs
   = Return {| MaximumLengthValidator.max_length :=
                 default 256 (kwargs !! "max_length") |})
  /\ (forall key, is_Some (kwargs !! key) -> key <> "max_length" ->
        MaximumLengthValidator.__init__ kwargs
        = Raise (TypeError "__init__() got an unexpected keyword argument")).
Proof.
  unfold MaximumLengthValidator.__init__. split.
  - intros Honly. rewrite decide_True; [done |].
    apply map_eq. intros key. rewrite lookup_empty.
    destruct (decide (key = "max_length")) as [-> | Hne].
    + apply lookup_delete_eq.
    + rewrite lookup_delete_ne by done.
      destruct (kwargs !! key) eqn:E; [| done].
      destruct Hne. apply Honly. by rewrite E.
  - intros key [v Hv] Hne. rewrite decide_False; [done |].
    intros Hempty.
    assert (delete "max_length" kwargs !! key = Some v) as Hl
        by (by rewrite lookup_delete_ne).
    by rewrite Hempty, lookup_empty in Hl.
Qed.

(** The help text of a [MaximumLengthValidator] spells the limit out in
    decimal, with [character] for a limit of one and [characters] for any
    other, negative limits included; no placeholder is left in it. *)
Theorem MaximumLengthValidator_help_text (self : MaximumLengthValidator.t) :
  MaximumLengthValidator.get_help_text self
  = "Your password must contain no more than "
    +:+ pretty (MaximumLengthValidator.max_length self)
    +:+ (if decide (MaximumLengthValidator.max_length self = 1)
         then " character." else " characters.").
Proof.
  destruct self as [limit]. unfold MaximumLengthValidator.get_help_text, ngettext.
  cbn [MaximumLengthValidator.max_length].
  destruct (Z.eqb_spec limit 1) as [-> | Hne].
  - vm_compute. reflexivity.
  - rewrite decide_False by done. reflexivity.
Qed.

(** ** Markup in the rendered help texts *)


Section HelpTextMarkup.

Context {User : Type}.
Variable import_string : string -> Result (@Class User).
Variable AUTH_PASSWORD_VALIDATORS : list (Descriptor).





End HelpTextMarkup.

(** ** Further properties of the soft-delete records *)

Section DefaultManager.

Context {Fields : Type}.
Variable clock : nat -> Z.

Lemma ParanoidQuerySet_delete_lookup (qs : @QuerySet Fields) (w : World) (k : Z) :
  table (ParanoidQuerySet.delete clock qs w) !! k
  = (fun r => if condition qs k r
              then set_date_deleted (Some (clock (clock_reads w))) r
              else r) <$> table w !! k.
Proof.
  unfold ParanoidQuerySet.delete, timezone_now.
  by rewrite QuerySet_update_lookup.
Qed.

Lemma default_manager_selects_alive (cond : Z -> @Row Fields -> bool) k r :
  condition (QuerySet_filter ParanoidManager.get_queryset cond) k r = true ->
  date_deleted r = None.
Proof.
  unfold ParanoidManager.get_queryset, date_deleted__isnull. cbn.
  by destruct (date_deleted r).
Qed.

(** The default manager hands out exactly the rows whose [date_deleted] is
    null, and no further filter on its query brings a soft-deleted row
    back. *)
Theorem ParanoidManager_get_queryset_alive_rows
    (tbl : gmap Z (@Row Fields)) (cond : Z -> Row -> bool) (k : Z) (r : Row) :
  (QuerySet_rows ParanoidManager.get_queryset tbl !! k = Some r
   <-> tbl !! k = Some r /\ date_deleted r = None)
  /\ (QuerySet_rows (QuerySet_filter ParanoidManager.get_queryset cond) tbl !! k = Some r
      -> tbl !! k = Some r /\ date_deleted r = None /\ cond k r = true).
Proof.
  unfold QuerySet_rows. split.
  - rewrite map_lookup_filter_Some.
    unfold ParanoidManager.get_queryset, date_deleted__isnull. cbn.
    split; intros [Hk Hc]; (split; [done |]); by destruct (date_deleted r).
  - rewrite map_lookup_filter_Some. cbn [fst snd]. intros [Hk Hc].
    split; [done |]. split; [by eapply default_manager_selects_alive |].
    cbn in Hc. by apply andb_prop in Hc as [_ Hc].
Qed.

(** Bulk delete through the default manager, whatever further filter is
    applied, never touches a row that is already soft-deleted: the row keeps
    the instant of its first deletion. *)
Theorem ParanoidQuerySet_delete_keeps_first_instant
    (cond : Z -> @Row Fields -> bool) (w : World) (k : Z) (r : Row) (t : Z) :
  table w !! k = Some r ->
  date_deleted r = Some t ->
  table (ParanoidQuerySet.delete clock
           (QuerySet_filter ParanoidManager.get_queryset cond) w) !! k
  = Some r.
Proof.
  intros Hk Ht. rewrite ParanoidQuerySet_delete_lookup, Hk. cbn.
  unfold date_deleted__isnull. by rewrite Ht.
Qed.

(** Bulk delete through the default manager is idempotent on the table:
    repeating the same delete changes no row, the rows marked by the first
    one being out of reach of the second. *)
Theorem ParanoidQuerySet_delete_idempotent
    (cond : Z -> @Row Fields -> bool) (w : World) :
  let qs := QuerySet_filter ParanoidManager.get_queryset cond in
  table (ParanoidQuerySet.delete clock qs (ParanoidQuerySet.delete clock qs w))
  = table (ParanoidQuerySet.delete clock qs w).
Proof.
  cbv zeta. apply map_eq. intros k.
  rewrite ParanoidQuerySet_delete_lookup.
  destruct (table (ParanoidQuerySet.delete clock
                     (QuerySet_filter ParanoidManager.get_queryset cond) w) !! k)
    as [r' |] eqn:E; [| done].
  cbn. f_equal.
  rewrite ParanoidQuerySet_delete_lookup in E.
  destruct (table w !! k) as [r |]; [| done]. cbn in E.
  destruct (date_deleted__isnull true k r' && cond k r') eqn:Hc'; [| done].
  pose proof (default_manager_selects_alive cond k r' Hc') as Halive'.
  destruct (date_deleted__isnull true k r && cond k r) eqn:Hc;
    injection E as <-; [discriminate Halive' | congruence].
Qed.

(** After a bulk delete the default manager hands out what it handed out
    before less the rows the deleted query selected: those rows are gone
    from it, and every other alive row is still there, unchanged. *)
Theorem ParanoidQuerySet_delete_default_view
    (qs : @QuerySet Fields) (w : World) (k : Z) (r : Row) :
  QuerySet_rows ParanoidManager.get_queryset
    (table (ParanoidQuerySet.delete clock qs w)) !! k = Some r
  <-> QuerySet_rows ParanoidManager.get_queryset (table w) !! k = Some r
      /\ condition qs k r = false.
Proof.
  unfold QuerySet_rows. rewrite !map_lookup_filter_Some.
  rewrite ParanoidQuerySet_delete_lookup. cbn [fst snd]. split.
  - intros [Hk Halive]. destruct (table w !! k) as [r0 |]; [| done].
    cbn in Hk. destruct (condition qs k r0) eqn:Hc; injection Hk as <-.
    + by cbn in Halive.
    + done.
  - intros [[Hk Halive] Hc]. rewrite Hk. cbn. by rewrite Hc.
Qed.

End DefaultManager.

(** ** Descriptors without options, and a pipeline of one length check *)

Section SettingsProperties.

Context {User : Type}.
Variable import_string : string -> Result (@Class User).

Lemma get_password_validators_loop_spelled_out (validator_config : list Descriptor) :
  forall validators,
    get_password_validators_loop import_string
      (map options_spelled_out validator_config) validators
    = get_password_validators_loop import_string validator_config validators.
Proof.
  induction validator_config as [| d rest IH]; intros validators; [done |].
  cbn [map get_password_validators_loop options_spelled_out NAME OPTIONS default].
  unfold bind. destruct (try_except _ _) as [t [cls | e]]; [| done].
  destruct (call _ _) as [t' [instance | e]]; [| done].
  by rewrite IH.
Qed.

(** A descriptor without the ["OPTIONS"] key is built as one whose options
    are the empty mapping: the same calls, the same instances or the same
    failure. *)
Theorem get_password_validators_missing_options (validator_config : list Descriptor) :
  get_password_validators import_string (map options_spelled_out validator_config)
  = get_password_validators import_string validator_config.
Proof. apply get_password_validators_loop_spelled_out. Qed.

(** Settings that name [MaximumLengthValidator] alone, with a limit: without
    an explicit list [validate_password] returns [None] for a password of at
    most that many characters and, for a longer one, raises an aggregate of
    exactly one failure, of code [password_too_long] and with the limit
    among its parameters. *)
Theorem validate_password_single_length_check
    (d : Descriptor) (limit : Z) password (user : option User) :
  import_string (NAME d) = Return MaximumLengthValidator.cls ->
  OPTIONS d = Some {[ "max_length" := limit ]} ->
  let outcome := result (validate_password import_string [d] password user None) in
  (Z.of_nat (String.length password) <= limit -> outcome = Return tt)
  /\ (limit < Z.of_nat (String.length password) ->
      exists message params,
        outcome = Raise (ValidationError_exn
                           (VEs [VE message (Some "password_too_long") params]))
        /\ params !! "max_length" = Some limit).
Proof.
  intros Hcls Hopt. cbv zeta.
  unfold validate_password, get_default_password_validators, get_password_validators.
  cbn [get_password_validators_loop]. rewrite Hcls, Hopt.
  cbn [call try_except bind default cls_call MaximumLengthValidator.cls].
  unfold id. rewrite MaximumLengthValidator_configured.
  cbn [bind ret app validate_password_loop call try_except validate
       MaximumLengthValidator.instance].
  unfold MaximumLengthValidator.validate. cbn [MaximumLengthValidator.max_length].
  split; intros H.
  - destruct (Z.gtb_spec (Z.of_nat (String.length password)) limit); [lia | done].
  - destruct (Z.gtb_spec (Z.of_nat (String.length password)) limit); [| lia].
    eexists _, _. split; [reflexivity |]. apply lookup_singleton_eq.
Qed.

End SettingsProperties.

(** ** The further statements at concrete inputs *)

(** A length check, then one with an option it does not take, then an
    unknown name: the [TypeError] comes out and the unknown name is never
    looked up. *)
Lemma get_password_validators_constructor_raises_witness :
  get_password_validators (User := unit) import_string_here
    ([descriptor_default] ++ descriptor_bad_option :: [descriptor_unknown])
  = (flat_map (build_calls import_string_here) [descriptor_default]
       ++ [Call_import_string (NAME descriptor_bad_option);
           Call_cls MaximumLengthValidator.cls (default ∅ (OPTIONS descriptor_bad_option))],
     Raise (TypeError "__init__() got an unexpected keyword argument")).
Proof.
  apply (get_password_validators_constructor_raises import_string_here
           [descriptor_default] [max_length_validator 256]
           descriptor_bad_option MaximumLengthValidator.cls
           (TypeError "__init__() got an unexpected keyword argument")
           [descriptor_unknown]).
  - constructor; [eexists; split; reflexivity | constructor].
  - reflexivity.
  - reflexivity.
Defined.

(** A module whose import fails with a [SyntaxError]: that error comes out,
    not [ImproperlyConfigured]. *)
Lemma get_password_validators_resolver_raises_witness :
  get_password_validators (User := unit) import_string_broken_module
    ([descriptor_default] ++ descriptor_broken_module :: [descriptor_default])
  = (flat_map (build_calls import_string_broken_module) [descriptor_default]
       ++ [Call_import_string (NAME descriptor_broken_module)],
     Raise (OtherException "SyntaxError" "invalid syntax")).
Proof.
  apply (get_password_validators_resolver_raises import_string_broken_module
           [descriptor_default] [max_length_validator 256]
           descriptor_broken_module
           (OtherException "SyntaxError" "invalid syntax")
           [descriptor_default]).
  - constructor; [eexists; split; reflexivity | constructor].
  - reflexivity.
  - discriminate.
Defined.

(** Settings of two length checks, limits 256 and 5. *)
Lemma validate_password_default_list_witness :
  validate_password (User := unit) import_string_here
    [descriptor_default; descriptor_limit 5] "abcdefgh" None None
  = (flat_map (build_calls import_string_here) [descriptor_default; descriptor_limit 5]
       ++ trace (validate_password import_string_here
                   [descriptor_default; descriptor_limit 5] "abcdefgh" None
                   (Some [max_length_validator 256; max_length_validator 5])),
     result (validate_password import_string_here
               [descriptor_default; descriptor_limit 5] "abcdefgh" None
               (Some [max_length_validator 256; max_length_validator 5]))).
Proof.
  apply (validate_password_default_list import_string_here
           [descriptor_default; descriptor_limit 5] "abcdefgh" None
           [max_length_validator 256; max_length_validator 5]).
  constructor; [eexists; split; reflexivity |].
  constructor; [eexists; split; reflexivity |].
  constructor.
Defined.

(** Settings with an unknown name after a length check. *)
Lemma default_validators_unresolvable_witness :
  let calls :=
    flat_map (build_calls (User := unit) import_string_here) [descriptor_default]
      ++ [Call_import_string (NAME descriptor_unknown)] in
  let e :=
    ImproperlyConfigured
      ("The module in NAME could not be imported: " +:+ NAME descriptor_unknown
       +:+ ". Check your AUTH_PASSWORD_VALIDATORS setting.") in
  validate_password import_string_here
    [descriptor_default; descriptor_unknown; descriptor_default] "abcdefgh" None None
  = (calls, Raise e)
  /\ password_validators_help_texts import_string_here
       [descriptor_default; descriptor_unknown; descriptor_default] None
     = (calls, Raise e)
  /\ _password_validators_help_text_html import_string_here
       [descriptor_default; descriptor_unknown; descriptor_default] None
     = (calls, Raise e).
Proof.
  apply (default_validators_unresolvable import_string_here
           [descriptor_default; descriptor_unknown; descriptor_default]
           "abcdefgh" None
           [descriptor_default] [max_length_validator 256]
           descriptor_unknown [descriptor_default]).
  - reflexivity.
  - constructor; [eexists; split; reflexivity | constructor].
  - eexists. reflexivity.
Defined.

Lemma password_validators_help_texts_default_witness :
  password_validators_help_texts (User := unit) import_string_here
    [descriptor_default; descriptor_limit 5] None
  = (flat_map (build_calls import_string_here) [descriptor_default; descriptor_limit 5]
       ++ help_calls [max_length_validator 256; max_length_validator 5],
     Return (map get_help_text [max_length_validator 256; max_length_validator 5]))
  /\ length (map get_help_text [max_length_validator 256; max_length_validator 5])
     = length [descriptor_default; descriptor_limit 5].
Proof.
  apply (password_validators_help_texts_default import_string_here
           [descriptor_default; descriptor_limit 5]
           [max_length_validator 256; max_length_validator 5]).
  constructor; [eexists; split; reflexivity |].
  constructor; [eexists; split; reflexivity |].
  constructor.
Defined.

(** The limit given alone, and the limit given with a keyword the type
    does not take. *)
Lemma MaximumLengthValidator_init_keywords_witness :
  MaximumLengthValidator.__init__ {[ "max_length" := 12 ]}
  = Return {| MaximumLengthValidator.max_length :=
                default 256 (({[ "max_length" := 12 ]} : gmap string Z) !! "max_length") |}
  /\ MaximumLengthValidator.__init__ {[ "max_length" := 12; "min_length" := 8 ]}
     = Raise (TypeError "__init__() got an unexpected keyword argument").
Proof.
  split.
  - apply (proj1 (MaximumLengthValidator_init_keywords {[ "max_length" := 12 ]})).
    intros key [v Hv].
    destruct (decide (key = "max_length")) as [-> | Hne]; [done |].
    by rewrite lookup_singleton_ne in Hv.
  - apply (proj2 (MaximumLengthValidator_init_keywords
                    {[ "max_length" := 12; "min_length" := 8 ]}) "min_length").
    + exists 8. reflexivity.
    + discriminate.
Defined.

(** The third of the three rows, soft-deleted already, under a bulk delete
    of everything the default manager hands out. *)
Lemma ParanoidQuerySet_delete_keeps_first_instant_witness :
  table (ParanoidQuerySet.delete ticking_clock
           (QuerySet_filter ParanoidManager.get_queryset (fun _ _ => true))
           three_rows_world) !! 3
  = Some {| date_deleted := Some 1600000000; fields := "third" |}.
Proof.
  apply (ParanoidQuerySet_delete_keeps_first_instant ticking_clock
           (fun _ _ => true) three_rows_world 3
           {| date_deleted := Some 1600000000; fields := "third" |} 1600000000).
  - reflexivity.
  - reflexivity.
Defined.

(** Settings of one length check of limit 8: eight characters pass, nine
    do not. *)
Lemma validate_password_single_length_check_witness :
  result (validate_password (User := unit) import_string_here
            [descriptor_limit 8] "abcdefgh" None None)
  = Return tt
  /\ exists message params,
       result (validate_password (User := unit) import_string_here
                 [descriptor_limit 8] "abcdefghi" None None)
       = Raise (ValidationError_exn
                  (VEs [VE message (Some "password_too_long") params]))
       /\ params !! "max_length" = Some 8.
Proof.
  split.
  - apply (proj1 (validate_password_single_length_check import_string_here
                    (descriptor_limit 8) 8 "abcdefgh" None eq_refl eq_refl)).
    vm_compute. discriminate.
  - apply (proj2 (validate_password_single_length_check import_string_here
                    (descriptor_limit 8) 8 "abcdefghi" None eq_refl eq_refl)).
    vm_compute. reflexivity.
Defined.
